(** * Calculator history observers (app/history.py)

    A shallow embedding of the two observers of the calculator, [LoggingObserver]
    and [AutoSaveObserver], and the properties of their [update] operations.

    Python objects live in a store and are passed by reference, so that a host
    calculator whose configuration changes between two notifications is seen
    by the observer that holds it.  The observers act on two collaborators
    only, the logging module and the host calculator; what they do to them, and
    every attribute they look up, is recorded in a trace, in order. *)

From Stdlib Require Import ZArith.
From stdpp Require Import base option list strings gmap pretty.

Open Scope Z_scope.

(** ** Values and objects *)

(** The identity of an object in the store, and the name of the code behind a
    callable object. *)
Definition loc := positive.
Definition fn := nat.

Inductive value : Type :=
  | VNone
  | VBool (b : bool)
  | VInt (z : Z)
  | VStr (s : string)
  | VRef (l : loc).

#[global] Instance value_eq_dec : EqDecision value.
Proof. solve_decision. Defined.

(** An object is known by what the protocols used in app/history.py give for
    it: the name of its class (it appears in error messages), the text of
    [format(o, '')], its truth value, the code run when it is called (if it is
    callable) and the attributes that [getattr] finds on it. *)
Record obj : Type := Obj {
  cls : string;
  shown : string;
  truth : bool;
  code : option fn;
  attrs : gmap string value
}.

Inductive exn : Type :=
  | AttributeError (msg : string)
  | TypeError (msg : string)
  | OtherError (kind msg : string).

#[global] Instance exn_eq_dec : EqDecision exn.
Proof. solve_decision. Defined.

(** What the observers do that can be seen from outside, one entry per
    action: an attribute lookup ([getattr] or [hasattr]), a call of the
    callable [f], a call of [logging.info]. *)
Inductive event : Type :=
  | EGetAttr (target : value) (name : string)
  | ECall (f : fn)
  | ELogInfo (msg : string).

#[global] Instance event_eq_dec : EqDecision event.
Proof. solve_decision. Defined.

Record world : Type := World {
  heap : gmap loc obj;
  trace : list event
}.

Definition observe (e : event) (w : world) : world :=
  {| heap := heap w; trace := trace w ++ [e] |}.

(** ** Reading the store *)

(** [type(v).__name__] *)
Definition type_name (h : gmap loc obj) (v : value) : string :=
  match v with
  | VNone => "NoneType"
  | VBool _ => "bool"
  | VInt _ => "int"
  | VStr _ => "str"
  | VRef l => from_option cls "object" (h !! l)
  end.

(** The attribute [name] of [v], if it has one.  The built-in scalars have
    none of the attributes that app/history.py asks for. *)
Definition lookup_attr (h : gmap loc obj) (v : value) (name : string) : option value :=
  match v with
  | VRef l => h !! l ≫= λ o, attrs o !! name
  | _ => None
  end.

(** [bool(v)] *)
Definition truthy (h : gmap loc obj) (v : value) : bool :=
  match v with
  | VNone => false
  | VBool b => b
  | VInt z => negb (z =? 0)
  | VStr s => negb (String.eqb s "")
  | VRef l => from_option truth true (h !! l)
  end.

(** [format(v, '')], the text an f-string puts for [{v}] *)
Definition format (h : gmap loc obj) (v : value) : string :=
  match v with
  | VNone => "None"
  | VBool true => "True"
  | VBool false => "False"
  | VInt z => pretty z
  | VStr s => s
  | VRef l => from_option shown "" (h !! l)
  end.

(** The code behind [v], when [v] is callable. *)
Definition callable (h : gmap loc obj) (v : value) : option fn :=
  match v with
  | VRef l => h !! l ≫= code
  | _ => None
  end.

(** [v is None] *)
Definition is_None (v : value) : bool :=
  match v with
  | VNone => true
  | _ => false
  end.

(** ** Calculation *)

(** Modelled from the spec: the [Calculation] record of app/calculation.py,
    which is not part of this file: an object with the attributes [operation],
    [operand1], [operand2] and [result]. *)
Record Calculation : Type := {
  operation : value;
  operand1 : value;
  operand2 : value;
  result : value
}.

(** The [Calculation] that the reference [v] points to in the store [h]. *)
Definition as_Calculation (h : gmap loc obj) (v : value) : option Calculation :=
  op ← lookup_attr h v "operation";
  a ← lookup_attr h v "operand1";
  b ← lookup_attr h v "operand2";
  r ← lookup_attr h v "result";
  Some {| operation := op; operand1 := a; operand2 := b; result := r |}.

(** ** Computations: state and exceptions *)

Inductive outcome (A : Type) : Type :=
  | Returns (a : A)
  | Raises (e : exn).
Arguments Returns {A} a.
Arguments Raises {A} e.

(** A computation runs in a world and either returns or raises; what it did
    to the world before raising stays done. *)
Definition M (A : Type) : Type := world → outcome A * world.

#[global] Instance M_ret : MRet M := λ A a w, (Returns a, w).

#[global] Instance M_bind : MBind M := λ A B k m w,
  match m w with
  | (Returns a, w') => k a w'
  | (Raises e, w') => (Raises e, w')
  end.

Definition raise {A : Type} (e : exn) : M A := λ w, (Raises e, w).

(** The events that running [m] in [w] adds to the trace. *)
Definition emitted {A : Type} (m : M A) (w : world) : list event :=
  drop (length (trace w)) (trace (m w).2).

(** The messages passed to [logging.info], in order. *)
Definition log_records (tr : list event) : list string :=
  omap (λ e, match e with ELogInfo msg => Some msg | _ => None end) tr.

(** The callables that were called, in order. *)
Definition calls (tr : list event) : list fn :=
  omap (λ e, match e with ECall f => Some f | _ => None end) tr.

(** What was done to the collaborators, in order: the trace without the
    attribute lookups. *)
Definition actions (tr : list event) : list event :=
  omap (λ e, match e with EGetAttr _ _ => None | _ => Some e end) tr.

(** The attribute lookups, in order. *)
Definition lookups (tr : list event) : list (value * string) :=
  omap (λ e, match e with EGetAttr v name => Some (v, name) | _ => None end) tr.

(** [getattr(v, name)] *)
Definition getattr (v : value) (name : string) : M value := λ w,
  match lookup_attr (heap w) v name with
  | Some x => (Returns x, observe (EGetAttr v name) w)
  | None =>
      (Raises (AttributeError
         ("'" +:+ type_name (heap w) v +:+ "' object has no attribute '" +:+ name +:+ "'")),
       observe (EGetAttr v name) w)
  end.

(** [hasattr(v, name)] *)
Definition hasattr (v : value) (name : string) : M bool := λ w,
  (Returns (bool_decide (is_Some (lookup_attr (heap w) v name))),
   observe (EGetAttr v name) w).

(** [bool(v)] inside a computation *)
Definition truth_of (v : value) : M bool := λ w, (Returns (truthy (heap w) v), w).

(** [format(v, '')] inside a computation *)
Definition fmt (v : value) : M string := λ w, (Returns (format (heap w) v), w).

(** [logging.info(msg)] *)
Definition logging_info (msg : string) : M unit := λ w,
  (Returns (), observe (ELogInfo msg) w).

(** What the code of the host does when it is called: the store it leaves
    behind and the exception it raises, if it raises one.  It is not part of
    app/history.py; everything below holds for any host. *)
Definition host_code : Type := fn → gmap loc obj → gmap loc obj * option exn.

(** [v()], the value returned being dropped *)
Definition call (invoke : host_code) (v : value) : M unit := λ w,
  match callable (heap w) v with
  | Some f =>
      let r := invoke f (heap w) in
      (match r.2 with
       | None => Returns ()
       | Some e => Raises e
       end,
       {| heap := r.1; trace := trace w ++ [ECall f] |})
  | None =>
      (Raises (TypeError ("'" +:+ type_name (heap w) v +:+ "' object is not callable")), w)
  end.

(** ** The observers *)

(** [HistoryObserver]: the abstract base class, one operation. *)
Class HistoryObserver (O : Type) : Type :=
  update : O → value → M unit.

Module LoggingObserver.

Inductive t : Type := new.

Definition update (self : t) (calculation : value) : M unit :=
  if is_None calculation then
    raise (AttributeError "Calculation cannot be None")
  else
    operation ← getattr calculation "operation";
    s0 ← fmt operation;
    operand1 ← getattr calculation "operand1";
    s1 ← fmt operand1;
    operand2 ← getattr calculation "operand2";
    s2 ← fmt operand2;
    result ← getattr calculation "result";
    s3 ← fmt result;
    logging_info
      ("Calculation performed: " +:+ s0 +:+ " " +:+
       "(" +:+ s1 +:+ ", " +:+ s2 +:+ ") = " +:+
       s3).

End LoggingObserver.

Module AutoSaveObserver.

Record t : Type := new { calculator : value }.

(** [__init__], giving the observer when it does not raise *)
Definition init (calculator : value) : M t :=
  missing ← (has_config ← hasattr calculator "config";
             if negb has_config then mret true
             else has_save ← hasattr calculator "save_history";
                  mret (negb has_save));
  if missing : bool then
    raise (TypeError "Calculator must have 'config' and 'save_history' attributes")
  else
    mret {| calculator := calculator |}.

Definition update (invoke : host_code) (self : t) (calculation : value) : M unit :=
  if is_None calculation then
    raise (AttributeError "Calculation cannot be None")
  else
    config ← getattr (calculator self) "config";
    auto_save ← getattr config "auto_save";
    enabled ← truth_of auto_save;
    if enabled : bool then
      save_history ← getattr (calculator self) "save_history";
      call invoke save_history;;
      logging_info "History auto-saved"
    else
      mret ().

End AutoSaveObserver.

#[global] Instance LoggingObserver_observer : HistoryObserver LoggingObserver.t :=
  LoggingObserver.update.

#[global] Instance AutoSaveObserver_observer (invoke : host_code) :
  HistoryObserver AutoSaveObserver.t :=
  AutoSaveObserver.update invoke.

(** ** Stores used in the examples *)

Definition calc_obj : obj :=
  {| cls := "Calculation"; shown := "Calculation"; truth := true; code := None;
     attrs := {[ "operation" := VStr "add"; "operand1" := VInt 2;
                 "operand2" := VInt 3; "result" := VInt 5 ]} |}.

Definition config_obj (auto_save : bool) : obj :=
  {| cls := "CalculatorConfig"; shown := "CalculatorConfig"; truth := true; code := None;
     attrs := {[ "auto_save" := VBool auto_save ]} |}.

Definition bare_config_obj : obj :=
  {| cls := "object"; shown := "object"; truth := true; code := None; attrs := ∅ |}.

Definition method_obj : obj :=
  {| cls := "method"; shown := "method"; truth := true; code := Some 0%nat; attrs := ∅ |}.

Definition calculator_obj (config : loc) : obj :=
  {| cls := "Calculator"; shown := "Calculator"; truth := true; code := None;
     attrs := {[ "config" := VRef config; "save_history" := VRef 3%positive ]} |}.

Definition config_only_obj : obj :=
  {| cls := "Calculator"; shown := "Calculator"; truth := true; code := None;
     attrs := {[ "config" := VRef 2%positive ]} |}.

(** 1: a calculation; 2: a configuration; 3: the [save_history] method;
    4: a calculator; 5: a configuration without [auto_save]; 6: a calculator
    over it; 7: an object with a [config] and no [save_history]. *)
Definition store (auto_save : bool) : gmap loc obj :=
  {[ 1%positive := calc_obj; 2%positive := config_obj auto_save;
     3%positive := method_obj; 4%positive := calculator_obj 2%positive;
     5%positive := bare_config_obj; 6%positive := calculator_obj 5%positive;
     7%positive := config_only_obj ]}.

Definition start (auto_save : bool) : world :=
  {| heap := store auto_save; trace := [] |}.

(** A host whose [save_history] returns, one whose [save_history] raises, and
    one whose [save_history] marks the calculator as saved. *)
Definition saves : host_code := λ _ h, (h, None).

Definition fails : host_code :=
  λ _ h, (h, Some (OtherError "OperationError" "Failed to save history")).

Definition marks : host_code :=
  λ _ h, (alter (λ o, {| cls := cls o; shown := shown o; truth := truth o; code := code o;
                         attrs := <["saved" := VBool true]> (attrs o) |}) 4%positive h,
          None).

(** ** What the claims speak of *)

(** [host.config.auto_save] and the code behind [host.save_history], as the
    store has them. *)
Definition auto_save_of (h : gmap loc obj) (host : value) : option value :=
  config ← lookup_attr h host "config";
  lookup_attr h config "auto_save".

Definition save_history_of (h : gmap loc obj) (host : value) : option fn :=
  save_history ← lookup_attr h host "save_history";
  callable h save_history.

(** The capability set [config.auto_save] (a boolean) and [save_history]. *)
Definition has_capabilities (h : gmap loc obj) (host : value) : bool :=
  match auto_save_of h host, lookup_attr h host "save_history" with
  | Some (VBool _), Some _ => true
  | _, _ => false
  end.

(** The fixed format of the line that is logged for a calculation. *)
Definition log_line (h : gmap loc obj) (c : Calculation) : string :=
  "Calculation performed: " +:+ format h (operation c) +:+
  " (" +:+ format h (operand1 c) +:+ ", " +:+ format h (operand2 c) +:+
  ") = " +:+ format h (result c).

Definition add_2_3 : Calculation :=
  {| operation := VStr "add"; operand1 := VInt 2; operand2 := VInt 3; result := VInt 5 |}.

(** The host is ready to save: [host.config.auto_save] is there and true,
    and [host.save_history] is a callable with the code [f]. *)
Definition ready (h : gmap loc obj) (host : value) (f : fn) : Prop :=
  ∃ flag, auto_save_of h host = Some flag ∧ truthy h flag = true ∧
          save_history_of h host = Some f.

(** A calculator whose [save_history] attribute is a string, at 8 in a store
    that is otherwise [store true]. *)
Definition unsavable_obj : obj :=
  {| cls := "Calculator"; shown := "Calculator"; truth := true; code := None;
     attrs := {[ "config" := VRef 2%positive; "save_history" := VStr "history.csv" ]} |}.

Definition unsavable_start : world :=
  {| heap := <[8%positive := unsavable_obj]> (store true); trace := [] |}.

(** ** Running computations *)

Lemma bind_returns {A B : Type} (m : M A) (k : A → M B) w a w' :
  m w = (Returns a, w') → (m ≫= k) w = k a w'.
Proof. intros Hm. unfold mbind, M_bind. by rewrite Hm. Qed.

Lemma bind_raises {A B : Type} (m : M A) (k : A → M B) w e w' :
  m w = (Raises e, w') → (m ≫= k) w = (Raises e, w').
Proof. intros Hm. unfold mbind, M_bind. by rewrite Hm. Qed.

Lemma getattr_found v name w x :
  lookup_attr (heap w) v name = Some x →
  getattr v name w = (Returns x, observe (EGetAttr v name) w).
Proof. intros Hx. unfold getattr. by rewrite Hx. Qed.

Lemma getattr_missing v name w :
  lookup_attr (heap w) v name = None →
  ∃ msg, getattr v name w = (Raises (AttributeError msg), observe (EGetAttr v name) w).
Proof. intros Hx. unfold getattr. rewrite Hx. eauto. Qed.

Lemma emitted_app {A : Type} (m : M A) w o h tr :
  m w = (o, {| heap := h; trace := trace w ++ tr |}) → emitted m w = tr.
Proof. intros Hm. unfold emitted. rewrite Hm. simpl. apply drop_app_length. Qed.

Lemma emitted_same {A : Type} (m : M A) w o :
  m w = (o, w) → emitted m w = [].
Proof. intros Hm. unfold emitted. rewrite Hm. simpl. apply drop_all. Qed.

Lemma is_None_false v : v ≠ VNone → is_None v = false.
Proof. by destruct v. Qed.

Lemma as_Calculation_Some h v c :
  as_Calculation h v = Some c →
  lookup_attr h v "operation" = Some (operation c) ∧
  lookup_attr h v "operand1" = Some (operand1 c) ∧
  lookup_attr h v "operand2" = Some (operand2 c) ∧
  lookup_attr h v "result" = Some (result c) ∧
  v ≠ VNone.
Proof.
  unfold as_Calculation. intros Hc.
  destruct (lookup_attr h v "operation") as [op|] eqn:Hop; [|done].
  destruct (lookup_attr h v "operand1") as [a|] eqn:Ha; [|done].
  destruct (lookup_attr h v "operand2") as [b|] eqn:Hb; [|done].
  destruct (lookup_attr h v "result") as [r|] eqn:Hr; [|done].
  simpl in Hc. injection Hc as <-. simpl.
  repeat split. intros ->. discriminate.
Qed.

(** *** [LoggingObserver.update] *)

Lemma logging_update_run self calc w c :
  as_Calculation (heap w) calc = Some c →
  LoggingObserver.update self calc w =
    (Returns (),
     {| heap := heap w;
        trace := trace w ++
          [EGetAttr calc "operation"; EGetAttr calc "operand1";
           EGetAttr calc "operand2"; EGetAttr calc "result";
           ELogInfo (log_line (heap w) c)] |}).
Proof.
  intros (Hop & Ha & Hb & Hr & Hnone)%as_Calculation_Some.
  unfold LoggingObserver.update. rewrite (is_None_false _ Hnone).
  unfold mbind, M_bind, getattr, fmt, logging_info, observe. simpl.
  rewrite Hop. simpl. rewrite Ha. simpl. rewrite Hb. simpl. rewrite Hr. simpl.
  unfold log_line. by rewrite <- !app_assoc.
Qed.

Lemma logging_update_heap self calc w :
  heap (LoggingObserver.update self calc w).2 = heap w.
Proof.
  unfold LoggingObserver.update. destruct (is_None calc); [done|].
  unfold mbind, M_bind, getattr, fmt, logging_info, observe. simpl.
  repeat (match goal with
          | |- context [lookup_attr ?h ?v ?n] => destruct (lookup_attr h v n)
          end; simpl; try done).
Qed.

(** *** [AutoSaveObserver] *)

(** Construction looks up [config], then [save_history] if [config] is
    there, and nothing else. *)
Lemma init_run host w :
  AutoSaveObserver.init host w =
    (if bool_decide (is_Some (lookup_attr (heap w) host "config")) &&
        bool_decide (is_Some (lookup_attr (heap w) host "save_history"))
     then Returns {| AutoSaveObserver.calculator := host |}
     else Raises (TypeError "Calculator must have 'config' and 'save_history' attributes"),
     {| heap := heap w;
        trace := trace w ++
          EGetAttr host "config" ::
          (if bool_decide (is_Some (lookup_attr (heap w) host "config"))
           then [EGetAttr host "save_history"] else []) |}).
Proof.
  unfold AutoSaveObserver.init, mbind, M_bind, hasattr, mret, M_ret, raise, observe. simpl.
  destruct (bool_decide (is_Some (lookup_attr (heap w) host "config"))); simpl;
    [destruct (bool_decide (is_Some (lookup_attr (heap w) host "save_history"))) |];
    simpl; by rewrite <- ?app_assoc.
Qed.

Lemma init_calculator host w self w' :
  AutoSaveObserver.init host w = (Returns self, w') →
  AutoSaveObserver.calculator self = host.
Proof.
  rewrite init_run. intros Hi. injection Hi as Ho _.
  destruct (_ && _); [|done]. by injection Ho as <-.
Qed.

(** A notification with the flag off: two lookups and nothing else. *)
Lemma update_disabled_run invoke self calc w config flag :
  calc ≠ VNone →
  lookup_attr (heap w) (AutoSaveObserver.calculator self) "config" = Some config →
  lookup_attr (heap w) config "auto_save" = Some flag →
  truthy (heap w) flag = false →
  AutoSaveObserver.update invoke self calc w =
    (Returns (),
     {| heap := heap w;
        trace := trace w ++
          [EGetAttr (AutoSaveObserver.calculator self) "config";
           EGetAttr config "auto_save"] |}).
Proof.
  intros Hnone Hc Hf Ht.
  unfold AutoSaveObserver.update. rewrite (is_None_false _ Hnone).
  unfold mbind, M_bind, getattr, truth_of, observe. simpl.
  rewrite Hc. simpl. rewrite Hf. simpl. rewrite Ht.
  unfold mret, M_ret. by rewrite <- app_assoc.
Qed.

(** A notification with the flag on: three lookups, the call, and the log
    record when the call returns. *)
Lemma update_enabled_run invoke self calc w config flag save_history f :
  calc ≠ VNone →
  lookup_attr (heap w) (AutoSaveObserver.calculator self) "config" = Some config →
  lookup_attr (heap w) config "auto_save" = Some flag →
  truthy (heap w) flag = true →
  lookup_attr (heap w) (AutoSaveObserver.calculator self) "save_history" = Some save_history →
  callable (heap w) save_history = Some f →
  AutoSaveObserver.update invoke self calc w =
    (match (invoke f (heap w)).2 with
     | None => Returns ()
     | Some e => Raises e
     end,
     {| heap := (invoke f (heap w)).1;
        trace := trace w ++
          [EGetAttr (AutoSaveObserver.calculator self) "config";
           EGetAttr config "auto_save";
           EGetAttr (AutoSaveObserver.calculator self) "save_history";
           ECall f] ++
          match (invoke f (heap w)).2 with
          | None => [ELogInfo "History auto-saved"]
          | Some _ => []
          end |}).
Proof.
  intros Hnone Hc Hf Ht Hs Hcall.
  unfold AutoSaveObserver.update. rewrite (is_None_false _ Hnone).
  unfold mbind, M_bind, getattr, truth_of, call, logging_info, observe. simpl.
  rewrite Hc. simpl. rewrite Hf. simpl. rewrite Ht. simpl. rewrite Hs. simpl.
  rewrite Hcall. simpl.
  destruct (invoke f (heap w)) as [h' [e|]]; simpl;
    by rewrite <- ?app_assoc.
Qed.

(** Whatever happens, the store after a notification is the store before it
    or the one the code of the host left. *)
Lemma update_heap invoke self calc w :
  heap (AutoSaveObserver.update invoke self calc w).2 = heap w ∨
  ∃ f, heap (AutoSaveObserver.update invoke self calc w).2 = (invoke f (heap w)).1.
Proof.
  unfold AutoSaveObserver.update. destruct (is_None calc); [by left|].
  unfold mbind, M_bind, getattr, truth_of, call, logging_info, observe. simpl.
  destruct (lookup_attr (heap w) (AutoSaveObserver.calculator self) "config")
    as [config|]; simpl; [|by left].
  destruct (lookup_attr (heap w) config "auto_save") as [flag|]; simpl; [|by left].
  destruct (truthy (heap w) flag); simpl; [|by left].
  destruct (lookup_attr (heap w) (AutoSaveObserver.calculator self) "save_history")
    as [save_history|]; simpl; [|by left].
  destruct (callable (heap w) save_history) as [f|]; simpl; [|by left].
  right. exists f. by destruct (invoke f (heap w)) as [h' [e|]].
Qed.

Lemma auto_save_of_Some h host flag :
  auto_save_of h host = Some flag →
  ∃ config, lookup_attr h host "config" = Some config ∧
            lookup_attr h config "auto_save" = Some flag.
Proof.
  unfold auto_save_of. destruct (lookup_attr h host "config") as [config|]; [|done].
  simpl. eauto.
Qed.

Lemma save_history_of_Some h host f :
  save_history_of h host = Some f →
  ∃ save_history, lookup_attr h host "save_history" = Some save_history ∧
                  callable h save_history = Some f.
Proof.
  unfold save_history_of.
  destruct (lookup_attr h host "save_history") as [save_history|]; [|done].
  simpl. eauto.
Qed.

(** The host that marks the calculator writes to the object 4 alone. *)
Lemma marks_keeps_calculation f h c :
  as_Calculation h (VRef 1%positive) = Some c →
  as_Calculation (marks f h).1 (VRef 1%positive) = Some c.
Proof.
  intros Hc. unfold as_Calculation, lookup_attr, marks in *. simpl.
  by rewrite lookup_alter_ne.
Qed.

(** ** The logging observer *)

(** C1: for every [Calculation] that is not [None], [LoggingObserver.update]
    returns after exactly one call of [logging.info], whose message is
    [Calculation performed: {operation} ({operand1}, {operand2}) = {result}];
    for the operation add with the operands 2 and 3 and the result 5 the line
    is [Calculation performed: add (2, 3) = 5]. *)
Theorem logging_update_logs_calculation self calc w c :
  as_Calculation (heap w) calc = Some c →
  (LoggingObserver.update self calc w).1 = Returns () ∧
  log_records (emitted (LoggingObserver.update self calc) w) = [log_line (heap w) c] ∧
  (c = add_2_3 →
   log_records (emitted (LoggingObserver.update self calc) w) =
     ["Calculation performed: add (2, 3) = 5"]).
Proof.
  intros Hc. pose proof (logging_update_run self calc w c Hc) as Hrun.
  rewrite (emitted_app _ _ _ _ _ Hrun), Hrun. simpl.
  split; [done|]. split; [done|]. by intros ->.
Qed.

(** C6: [LoggingObserver.update] called with [None] raises the
    [AttributeError] "Calculation cannot be None" and logs nothing: the world
    is left as it was. *)
Theorem logging_update_rejects_None self w :
  LoggingObserver.update self VNone w =
    (Raises (AttributeError "Calculation cannot be None"), w) ∧
  log_records (emitted (LoggingObserver.update self VNone) w) = [].
Proof.
  assert (LoggingObserver.update self VNone w =
            (Raises (AttributeError "Calculation cannot be None"), w)) as Hrun by done.
  split; [done|]. by rewrite (emitted_same _ _ _ Hrun).
Qed.

(** ** Constructing the auto-save observer *)

(** C2: constructing an [AutoSaveObserver] over a host without the attribute
    [config], or without the attribute [save_history], raises the [TypeError]
    of [__init__]; no observer is returned and the store is left as it was. *)
Theorem init_rejects_missing_attribute host w :
  lookup_attr (heap w) host "config" = None ∨
  lookup_attr (heap w) host "save_history" = None →
  (AutoSaveObserver.init host w).1 =
    Raises (TypeError "Calculator must have 'config' and 'save_history' attributes") ∧
  (∀ self, (AutoSaveObserver.init host w).1 ≠ Returns self) ∧
  heap (AutoSaveObserver.init host w).2 = heap w.
Proof.
  intros Hmiss. rewrite init_run. simpl.
  assert (bool_decide (is_Some (lookup_attr (heap w) host "config")) &&
          bool_decide (is_Some (lookup_attr (heap w) host "save_history")) = false) as ->.
  { destruct Hmiss as [-> | ->]; [done|]. apply andb_false_r. }
  done.
Qed.

(** C3, as the code has it: an [AutoSaveObserver] is constructed exactly over
    the hosts that have the attributes [config] and [save_history]; every
    other host is refused with the [TypeError].  Whether the configuration has
    an [auto_save] is not looked at: the only lookups are [config] and, when
    it is there, [save_history], both on the host itself. *)
Theorem init_checks_two_attributes host w :
  (AutoSaveObserver.init host w).1 =
    (if bool_decide (is_Some (lookup_attr (heap w) host "config")) &&
        bool_decide (is_Some (lookup_attr (heap w) host "save_history"))
     then Returns {| AutoSaveObserver.calculator := host |}
     else Raises (TypeError "Calculator must have 'config' and 'save_history' attributes")) ∧
  lookups (emitted (AutoSaveObserver.init host) w) =
    (host, "config") ::
    (if bool_decide (is_Some (lookup_attr (heap w) host "config"))
     then [(host, "save_history")] else []).
Proof.
  pose proof (init_run host w) as Hrun.
  rewrite (emitted_app _ _ _ _ _ Hrun), Hrun. simpl. split; [done|].
  by destruct (bool_decide (is_Some (lookup_attr (heap w) host "config"))).
Qed.

(** ** Notifying the auto-save observer *)

(** C4, as the code has it: over a host whose [config.auto_save] is true when
    [update] is called, with a [Calculation] that is not [None], [update]
    calls the [save_history] of the host exactly once; when that call
    returns, [update] returns after exactly one call of [logging.info], with
    the message "History auto-saved". *)
Theorem update_enabled_saves_once invoke self calc w flag f :
  calc ≠ VNone →
  auto_save_of (heap w) (AutoSaveObserver.calculator self) = Some flag →
  truthy (heap w) flag = true →
  save_history_of (heap w) (AutoSaveObserver.calculator self) = Some f →
  calls (emitted (AutoSaveObserver.update invoke self calc) w) = [f] ∧
  ((invoke f (heap w)).2 = None →
   (AutoSaveObserver.update invoke self calc w).1 = Returns () ∧
   log_records (emitted (AutoSaveObserver.update invoke self calc) w) =
     ["History auto-saved"]).
Proof.
  intros Hnone (config & Hc & Hf)%auto_save_of_Some Ht
    (save_history & Hs & Hcall)%save_history_of_Some.
  pose proof (update_enabled_run invoke self calc w _ _ _ _ Hnone Hc Hf Ht Hs Hcall) as Hrun.
  rewrite (emitted_app _ _ _ _ _ Hrun), Hrun. simpl.
  destruct ((invoke f (heap w)).2); simpl; [done|]. by split.
Qed.

(** C5: over a host whose [config.auto_save] is false when [update] is
    called, with a [Calculation] that is not [None], [update] returns without
    calling anything and without logging, and leaves the store as it was. *)
Theorem update_disabled_does_nothing invoke self calc w flag :
  calc ≠ VNone →
  auto_save_of (heap w) (AutoSaveObserver.calculator self) = Some flag →
  truthy (heap w) flag = false →
  (AutoSaveObserver.update invoke self calc w).1 = Returns () ∧
  heap (AutoSaveObserver.update invoke self calc w).2 = heap w ∧
  calls (emitted (AutoSaveObserver.update invoke self calc) w) = [] ∧
  log_records (emitted (AutoSaveObserver.update invoke self calc) w) = [] ∧
  actions (emitted (AutoSaveObserver.update invoke self calc) w) = [].
Proof.
  intros Hnone (config & Hc & Hf)%auto_save_of_Some Ht.
  pose proof (update_disabled_run invoke self calc w _ _ Hnone Hc Hf Ht) as Hrun.
  by rewrite (emitted_app _ _ _ _ _ Hrun), Hrun.
Qed.

(** C7: [AutoSaveObserver.update] called with [None] raises the
    [AttributeError] "Calculation cannot be None" at once: nothing is looked
    up on the host, [save_history] is not called, nothing is logged, and the
    world is left as it was. *)
Theorem autosave_rejects_None invoke self w :
  AutoSaveObserver.update invoke self VNone w =
    (Raises (AttributeError "Calculation cannot be None"), w) ∧
  emitted (AutoSaveObserver.update invoke self VNone) w = [].
Proof.
  assert (AutoSaveObserver.update invoke self VNone w =
            (Raises (AttributeError "Calculation cannot be None"), w)) as Hrun by done.
  split; [done|]. by rewrite (emitted_same _ _ _ Hrun).
Qed.

(** C8: an observer constructed over a host in one world and notified in a
    later one, whatever happened to the store in between, looks up
    [auto_save] on the configuration of the host during the notification, and
    calls [save_history] exactly when the flag is true in the later world. *)
Theorem update_reads_live_flag invoke host w0 self w0' w1 calc flag f :
  AutoSaveObserver.init host w0 = (Returns self, w0') →
  calc ≠ VNone →
  auto_save_of (heap w1) host = Some flag →
  save_history_of (heap w1) host = Some f →
  calls (emitted (AutoSaveObserver.update invoke self calc) w1) =
    (if truthy (heap w1) flag then [f] else []) ∧
  ∃ config, lookup_attr (heap w1) host "config" = Some config ∧
            (config, "auto_save") ∈ lookups (emitted (AutoSaveObserver.update invoke self calc) w1).
Proof.
  intros Hinit%init_calculator Hnone (config & Hc & Hf)%auto_save_of_Some
    (save_history & Hs & Hcall)%save_history_of_Some.
  rewrite <- Hinit in Hc, Hs.
  destruct (truthy (heap w1) flag) eqn:Ht.
  - pose proof (update_enabled_run invoke self calc w1 _ _ _ _ Hnone Hc Hf Ht Hs Hcall) as Hrun.
    rewrite (emitted_app _ _ _ _ _ Hrun). rewrite <- Hinit. split.
    + simpl. by destruct ((invoke f (heap w1)).2).
    + exists config. split; [done|]. simpl. set_solver.
  - pose proof (update_disabled_run invoke self calc w1 _ _ Hnone Hc Hf Ht) as Hrun.
    rewrite (emitted_app _ _ _ _ _ Hrun). rewrite <- Hinit. split; [done|].
    exists config. split; [done|]. simpl. set_solver.
Qed.

(** C9: neither observer writes to the [Calculation] it is given:
    [LoggingObserver.update] leaves the whole store as it was, and the store
    after [AutoSaveObserver.update] is the store before it or the one that the
    [save_history] of the host left, so the four fields are the same after as
    before whenever the host does not change them; both operations return
    nothing or raise. *)
Theorem updates_keep_calculation invoke logger saver calc w c :
  as_Calculation (heap w) calc = Some c →
  (∀ f h, as_Calculation h calc = Some c → as_Calculation (invoke f h).1 calc = Some c) →
  heap (LoggingObserver.update logger calc w).2 = heap w ∧
  as_Calculation (heap (LoggingObserver.update logger calc w).2) calc = Some c ∧
  (heap (AutoSaveObserver.update invoke saver calc w).2 = heap w ∨
   ∃ f, heap (AutoSaveObserver.update invoke saver calc w).2 = (invoke f (heap w)).1) ∧
  as_Calculation (heap (AutoSaveObserver.update invoke saver calc w).2) calc = Some c ∧
  ((LoggingObserver.update logger calc w).1 = Returns () ∨
   ∃ e, (LoggingObserver.update logger calc w).1 = Raises e) ∧
  ((AutoSaveObserver.update invoke saver calc w).1 = Returns () ∨
   ∃ e, (AutoSaveObserver.update invoke saver calc w).1 = Raises e).
Proof.
  intros Hc Hhost.
  pose proof (logging_update_heap logger calc w) as Hlog.
  pose proof (update_heap invoke saver calc w) as Hsave.
  split; [done|]. split; [by rewrite Hlog|]. split; [done|]. split.
  - destruct Hsave as [-> | [f ->]]; [done|]. by apply Hhost.
  - split.
    + destruct (LoggingObserver.update logger calc w).1 as [[]|e]; eauto.
    + destruct (AutoSaveObserver.update invoke saver calc w).1 as [[]|e]; eauto.
Qed.

(** C10: with [auto_save] true, [AutoSaveObserver.update] calls
    [save_history] first and [logging.info] after it; when [save_history]
    raises, the exception leaves [update] and "History auto-saved" is not
    logged. *)
Theorem update_saves_before_logging invoke self calc w flag f :
  calc ≠ VNone →
  auto_save_of (heap w) (AutoSaveObserver.calculator self) = Some flag →
  truthy (heap w) flag = true →
  save_history_of (heap w) (AutoSaveObserver.calculator self) = Some f →
  match (invoke f (heap w)).2 with
  | None =>
      (AutoSaveObserver.update invoke self calc w).1 = Returns () ∧
      actions (emitted (AutoSaveObserver.update invoke self calc) w) =
        [ECall f; ELogInfo "History auto-saved"]
  | Some e =>
      (AutoSaveObserver.update invoke self calc w).1 = Raises e ∧
      actions (emitted (AutoSaveObserver.update invoke self calc) w) = [ECall f] ∧
      log_records (emitted (AutoSaveObserver.update invoke self calc) w) = []
  end.
Proof.
  intros Hnone (config & Hc & Hf)%auto_save_of_Some Ht
    (save_history & Hs & Hcall)%save_history_of_Some.
  pose proof (update_enabled_run invoke self calc w _ _ _ _ Hnone Hc Hf Ht Hs Hcall) as Hrun.
  rewrite (emitted_app _ _ _ _ _ Hrun), Hrun. simpl.
  by destruct ((invoke f (heap w)).2).
Qed.

(** ** The theorems at work on the example stores *)

Lemma logging_update_logs_calculation_witness :
  as_Calculation (heap (start true)) (VRef 1%positive) = Some add_2_3 ∧
  log_records (emitted (LoggingObserver.update LoggingObserver.new (VRef 1%positive))
                 (start true)) =
    ["Calculation performed: add (2, 3) = 5"].
Proof.
  assert (as_Calculation (heap (start true)) (VRef 1%positive) = Some add_2_3) as Hc
    by (vm_compute; reflexivity).
  split; [exact Hc|].
  exact (proj2 (proj2 (logging_update_logs_calculation LoggingObserver.new
                         (VRef 1%positive) (start true) add_2_3 Hc)) eq_refl).
Defined.

Lemma init_rejects_missing_attribute_witness :
  lookup_attr (heap (start true)) (VRef 7%positive) "save_history" = None ∧
  (AutoSaveObserver.init (VRef 7%positive) (start true)).1 =
    Raises (TypeError "Calculator must have 'config' and 'save_history' attributes").
Proof.
  assert (lookup_attr (heap (start true)) (VRef 7%positive) "save_history" = None) as Hs
    by (vm_compute; reflexivity).
  split; [exact Hs|].
  exact (proj1 (init_rejects_missing_attribute (VRef 7%positive) (start true)
                  (or_intror Hs))).
Defined.

(** C3 as it is written fails: the calculator 6 has a [config] without
    [auto_save], so it lacks part of the capability set, and an observer is
    constructed over it all the same. *)
Lemma init_accepts_config_without_auto_save :
  lookup_attr (heap (start true)) (VRef 6%positive) "config" = Some (VRef 5%positive) ∧
  lookup_attr (heap (start true)) (VRef 5%positive) "auto_save" = None ∧
  has_capabilities (heap (start true)) (VRef 6%positive) = false ∧
  (AutoSaveObserver.init (VRef 6%positive) (start true)).1 =
    Returns {| AutoSaveObserver.calculator := VRef 6%positive |}.
Proof. vm_compute. done. Qed.

(** C4 as it is written fails: the calculator 4 has [auto_save] on and a
    [save_history]; when that [save_history] raises, it has been called once
    and no record is logged. *)
Lemma update_enabled_failed_save_logs_nothing :
  auto_save_of (heap (start true)) (VRef 4%positive) = Some (VBool true) ∧
  save_history_of (heap (start true)) (VRef 4%positive) = Some 0%nat ∧
  calls (emitted (AutoSaveObserver.update fails
                    {| AutoSaveObserver.calculator := VRef 4%positive |}
                    (VRef 1%positive)) (start true)) = [0%nat] ∧
  log_records (emitted (AutoSaveObserver.update fails
                          {| AutoSaveObserver.calculator := VRef 4%positive |}
                          (VRef 1%positive)) (start true)) = [] ∧
  (AutoSaveObserver.update fails {| AutoSaveObserver.calculator := VRef 4%positive |}
     (VRef 1%positive) (start true)).1 =
    Raises (OtherError "OperationError" "Failed to save history").
Proof. vm_compute. done. Qed.

Lemma update_enabled_saves_once_witness :
  VRef 1%positive ≠ VNone ∧
  auto_save_of (heap (start true)) (VRef 4%positive) = Some (VBool true) ∧
  save_history_of (heap (start true)) (VRef 4%positive) = Some 0%nat ∧
  calls (emitted (AutoSaveObserver.update saves
                    {| AutoSaveObserver.calculator := VRef 4%positive |}
                    (VRef 1%positive)) (start true)) = [0%nat] ∧
  log_records (emitted (AutoSaveObserver.update saves
                          {| AutoSaveObserver.calculator := VRef 4%positive |}
                          (VRef 1%positive)) (start true)) = ["History auto-saved"].
Proof.
  assert (VRef 1%positive ≠ VNone) as Hnone by discriminate.
  assert (auto_save_of (heap (start true)) (VRef 4%positive) = Some (VBool true)) as Hf
    by (vm_compute; reflexivity).
  assert (save_history_of (heap (start true)) (VRef 4%positive) = Some 0%nat) as Hs
    by (vm_compute; reflexivity).
  pose proof (update_enabled_saves_once saves
                {| AutoSaveObserver.calculator := VRef 4%positive |}
                (VRef 1%positive) (start true) (VBool true) 0%nat
                Hnone Hf eq_refl Hs) as [Hcalls Hlog].
  split; [exact Hnone|]. split; [exact Hf|]. split; [exact Hs|].
  split; [exact Hcalls|]. exact (proj2 (Hlog eq_refl)).
Defined.

Lemma update_disabled_does_nothing_witness :
  VRef 1%positive ≠ VNone ∧
  auto_save_of (heap (start false)) (VRef 4%positive) = Some (VBool false) ∧
  (AutoSaveObserver.update saves {| AutoSaveObserver.calculator := VRef 4%positive |}
     (VRef 1%positive) (start false)).1 = Returns () ∧
  actions (emitted (AutoSaveObserver.update saves
                      {| AutoSaveObserver.calculator := VRef 4%positive |}
                      (VRef 1%positive)) (start false)) = [].
Proof.
  assert (VRef 1%positive ≠ VNone) as Hnone by discriminate.
  assert (auto_save_of (heap (start false)) (VRef 4%positive) = Some (VBool false)) as Hf
    by (vm_compute; reflexivity).
  pose proof (update_disabled_does_nothing saves
                {| AutoSaveObserver.calculator := VRef 4%positive |}
                (VRef 1%positive) (start false) (VBool false)
                Hnone Hf eq_refl) as (Hret & _ & _ & _ & Hact).
  split; [exact Hnone|]. split; [exact Hf|]. split; [exact Hret|]. exact Hact.
Defined.

(** The observer is constructed while [auto_save] is on and notified after it
    has been turned off: nothing is saved. *)
Lemma update_reads_live_flag_witness :
  (AutoSaveObserver.init (VRef 4%positive) (start true)).1 =
    Returns {| AutoSaveObserver.calculator := VRef 4%positive |} ∧
  auto_save_of (heap (start true)) (VRef 4%positive) = Some (VBool true) ∧
  auto_save_of (heap (start false)) (VRef 4%positive) = Some (VBool false) ∧
  calls (emitted (AutoSaveObserver.update saves
                    {| AutoSaveObserver.calculator := VRef 4%positive |}
                    (VRef 1%positive)) (start false)) = [].
Proof.
  assert (AutoSaveObserver.init (VRef 4%positive) (start true) =
            (Returns {| AutoSaveObserver.calculator := VRef 4%positive |},
             (AutoSaveObserver.init (VRef 4%positive) (start true)).2)) as Hinit
    by (vm_compute; reflexivity).
  assert (auto_save_of (heap (start false)) (VRef 4%positive) = Some (VBool false)) as Hf
    by (vm_compute; reflexivity).
  assert (save_history_of (heap (start false)) (VRef 4%positive) = Some 0%nat) as Hs
    by (vm_compute; reflexivity).
  assert (VRef 1%positive ≠ VNone) as Hnone by discriminate.
  split; [vm_compute; reflexivity|]. split; [vm_compute; reflexivity|].
  split; [exact Hf|].
  exact (proj1 (update_reads_live_flag saves (VRef 4%positive) (start true) _ _
                  (start false) (VRef 1%positive) (VBool false) 0%nat
                  Hinit Hnone Hf Hs)).
Defined.

(** The host marks the calculator as saved, and the calculation is as it
    was. *)
Lemma updates_keep_calculation_witness :
  as_Calculation (heap (start true)) (VRef 1%positive) = Some add_2_3 ∧
  (∀ f h, as_Calculation h (VRef 1%positive) = Some add_2_3 →
          as_Calculation (marks f h).1 (VRef 1%positive) = Some add_2_3) ∧
  as_Calculation
    (heap (AutoSaveObserver.update marks {| AutoSaveObserver.calculator := VRef 4%positive |}
             (VRef 1%positive) (start true)).2) (VRef 1%positive) = Some add_2_3 ∧
  lookup_attr
    (heap (AutoSaveObserver.update marks {| AutoSaveObserver.calculator := VRef 4%positive |}
             (VRef 1%positive) (start true)).2) (VRef 4%positive) "saved" = Some (VBool true).
Proof.
  assert (as_Calculation (heap (start true)) (VRef 1%positive) = Some add_2_3) as Hc
    by (vm_compute; reflexivity).
  pose proof (λ f h, marks_keeps_calculation f h add_2_3) as Hhost.
  pose proof (updates_keep_calculation marks LoggingObserver.new
                {| AutoSaveObserver.calculator := VRef 4%positive |}
                (VRef 1%positive) (start true) add_2_3 Hc Hhost)
    as (_ & _ & _ & Hkept & _).
  split; [exact Hc|]. split; [exact Hhost|]. split; [exact Hkept|].
  vm_compute; reflexivity.
Defined.

(** The [save_history] of the host raises: it has been called, the exception
    leaves [update], and nothing is logged. *)
Lemma update_saves_before_logging_witness :
  VRef 1%positive ≠ VNone ∧
  auto_save_of (heap (start true)) (VRef 4%positive) = Some (VBool true) ∧
  save_history_of (heap (start true)) (VRef 4%positive) = Some 0%nat ∧
  (AutoSaveObserver.update fails {| AutoSaveObserver.calculator := VRef 4%positive |}
     (VRef 1%positive) (start true)).1 =
    Raises (OtherError "OperationError" "Failed to save history") ∧
  actions (emitted (AutoSaveObserver.update fails
                      {| AutoSaveObserver.calculator := VRef 4%positive |}
                      (VRef 1%positive)) (start true)) = [ECall 0%nat] ∧
  log_records (emitted (AutoSaveObserver.update fails
                          {| AutoSaveObserver.calculator := VRef 4%positive |}
                          (VRef 1%positive)) (start true)) = [].
Proof.
  assert (VRef 1%positive ≠ VNone) as Hnone by discriminate.
  assert (auto_save_of (heap (start true)) (VRef 4%positive) = Some (VBool true)) as Hf
    by (vm_compute; reflexivity).
  assert (save_history_of (heap (start true)) (VRef 4%positive) = Some 0%nat) as Hs
    by (vm_compute; reflexivity).
  split; [exact Hnone|]. split; [exact Hf|]. split; [exact Hs|].
  exact (update_saves_before_logging fails
           {| AutoSaveObserver.calculator := VRef 4%positive |}
           (VRef 1%positive) (start true) (VBool true) 0%nat Hnone Hf eq_refl Hs).
Defined.

(** ** Further properties of the observers *)

(** *** Notifications that fail *)

Lemma logging_update_incomplete_run self calc w :
  calc ≠ VNone →
  as_Calculation (heap w) calc = None →
  ∃ msg tr,
    LoggingObserver.update self calc w =
      (Raises (AttributeError msg), {| heap := heap w; trace := trace w ++ tr |}) ∧
    actions tr = [].
Proof.
  intros Hnone Hc. unfold LoggingObserver.update. rewrite (is_None_false _ Hnone).
  unfold as_Calculation in Hc.
  unfold mbind, M_bind, getattr, fmt, logging_info, observe. simpl.
  destruct (lookup_attr (heap w) calc "operation") as [op|]; simpl in *;
    [|by eexists _, [_]].
  destruct (lookup_attr (heap w) calc "operand1") as [a|]; simpl in *;
    [|eexists _, [_; _]; by rewrite <- !app_assoc].
  destruct (lookup_attr (heap w) calc "operand2") as [b|]; simpl in *;
    [|eexists _, [_; _; _]; by rewrite <- !app_assoc].
  destruct (lookup_attr (heap w) calc "result") as [r|]; simpl in *; [done|].
  eexists _, [_; _; _; _]. by rewrite <- !app_assoc.
Qed.

Lemma actions_nil_calls tr : actions tr = [] → calls tr = [] ∧ log_records tr = [].
Proof.
  induction tr as [|e tr IH]; [done|].
  destruct e; simpl; [|done..]. exact IH.
Qed.

(** X1: given an object that is not [None] and lacks one of [operation],
    [operand1], [operand2] and [result], [LoggingObserver.update] raises an
    [AttributeError]; no line is logged, not even in part, and the store is
    left as it was. *)
Theorem logging_update_incomplete_calculation self calc w :
  calc ≠ VNone →
  as_Calculation (heap w) calc = None →
  (∃ msg, (LoggingObserver.update self calc w).1 = Raises (AttributeError msg)) ∧
  log_records (emitted (LoggingObserver.update self calc) w) = [] ∧
  heap (LoggingObserver.update self calc w).2 = heap w.
Proof.
  intros Hnone Hc.
  destruct (logging_update_incomplete_run self calc w Hnone Hc) as (msg & tr & Hrun & Hact).
  rewrite (emitted_app _ _ _ _ _ Hrun), Hrun. simpl.
  split; [by exists msg|]. split; [|done]. by apply actions_nil_calls.
Qed.

Lemma unreadable_flag_run invoke self calc w :
  calc ≠ VNone →
  auto_save_of (heap w) (AutoSaveObserver.calculator self) = None →
  ∃ msg tr,
    AutoSaveObserver.update invoke self calc w =
      (Raises (AttributeError msg), {| heap := heap w; trace := trace w ++ tr |}) ∧
    actions tr = [].
Proof.
  intros Hnone Hf. unfold AutoSaveObserver.update. rewrite (is_None_false _ Hnone).
  unfold auto_save_of in Hf.
  unfold mbind, M_bind, getattr, truth_of, observe. simpl.
  destruct (lookup_attr (heap w) (AutoSaveObserver.calculator self) "config")
    as [config|]; simpl in *; [|by eexists _, [_]].
  rewrite Hf. simpl. eexists _, [_; _]. by rewrite <- !app_assoc.
Qed.

(** X2: when [config.auto_save] cannot be read on the host at the time of
    the call (the host has no [config] any more, or its [config] has no
    [auto_save], which the constructor accepts), [AutoSaveObserver.update]
    with a calculation that is not [None] raises an [AttributeError]:
    [save_history] is not called, nothing is logged and the store is left as
    it was. *)
Theorem update_unreadable_flag invoke self calc w :
  calc ≠ VNone →
  auto_save_of (heap w) (AutoSaveObserver.calculator self) = None →
  (∃ msg, (AutoSaveObserver.update invoke self calc w).1 = Raises (AttributeError msg)) ∧
  actions (emitted (AutoSaveObserver.update invoke self calc) w) = [] ∧
  heap (AutoSaveObserver.update invoke self calc w).2 = heap w.
Proof.
  intros Hnone Hf.
  destruct (unreadable_flag_run invoke self calc w Hnone Hf)
    as (msg & tr & Hrun & Hact).
  rewrite (emitted_app _ _ _ _ _ Hrun), Hrun. simpl.
  split; [by exists msg|]. done.
Qed.

(** X3: with [auto_save] true and a [save_history] attribute that cannot be
    called, [AutoSaveObserver.update] raises: an [AttributeError] when the
    attribute is gone, the [TypeError] of calling a value that is not callable
    when it is there.  Nothing is called, "History auto-saved" is not logged
    and the store is left as it was. *)
Theorem update_enabled_without_callable invoke self calc w flag :
  calc ≠ VNone →
  auto_save_of (heap w) (AutoSaveObserver.calculator self) = Some flag →
  truthy (heap w) flag = true →
  save_history_of (heap w) (AutoSaveObserver.calculator self) = None →
  match lookup_attr (heap w) (AutoSaveObserver.calculator self) "save_history" with
  | None => ∃ msg, (AutoSaveObserver.update invoke self calc w).1 = Raises (AttributeError msg)
  | Some v =>
      (AutoSaveObserver.update invoke self calc w).1 =
        Raises (TypeError ("'" +:+ type_name (heap w) v +:+ "' object is not callable"))
  end ∧
  actions (emitted (AutoSaveObserver.update invoke self calc) w) = [] ∧
  heap (AutoSaveObserver.update invoke self calc w).2 = heap w.
Proof.
  intros Hnone (config & Hc & Hf)%auto_save_of_Some Ht Hs.
  unfold save_history_of in Hs.
  assert (∃ o tr,
    AutoSaveObserver.update invoke self calc w =
      (o, {| heap := heap w; trace := trace w ++ tr |}) ∧ actions tr = [] ∧
    match lookup_attr (heap w) (AutoSaveObserver.calculator self) "save_history" with
    | None => ∃ msg, o = Raises (AttributeError msg)
    | Some v => o = Raises (TypeError ("'" +:+ type_name (heap w) v +:+ "' object is not callable"))
    end) as (o & tr & Hrun & Hact & Ho).
  { unfold AutoSaveObserver.update. rewrite (is_None_false _ Hnone).
    unfold mbind, M_bind, getattr, truth_of, call, observe. simpl.
    rewrite Hc. simpl. rewrite Hf. simpl. rewrite Ht. simpl.
    destruct (lookup_attr (heap w) (AutoSaveObserver.calculator self) "save_history")
      as [v|]; simpl in *.
    - rewrite Hs. eexists _, [_; _; _]. rewrite <- !app_assoc. simpl. eauto.
    - eexists _, [_; _; _]. rewrite <- !app_assoc. simpl. eauto. }
  rewrite (emitted_app _ _ _ _ _ Hrun), Hrun. simpl. done.
Qed.

(** X4: [AutoSaveObserver.update] looks at its calculation only to tell
    whether it is [None]: any two values that are not [None] give the same
    outcome and the same world. *)
Theorem update_ignores_calculation invoke self calc1 calc2 w :
  calc1 ≠ VNone →
  calc2 ≠ VNone →
  AutoSaveObserver.update invoke self calc1 w = AutoSaveObserver.update invoke self calc2 w.
Proof.
  intros H1 H2. unfold AutoSaveObserver.update.
  by rewrite (is_None_false _ H1), (is_None_false _ H2).
Qed.

(** X5: constructing an [AutoSaveObserver] calls nothing and logs nothing,
    whether it succeeds or not, and leaves the store as it was; the observer
    it returns holds the very host it was given. *)
Theorem init_is_silent host w :
  actions (emitted (AutoSaveObserver.init host) w) = [] ∧
  heap (AutoSaveObserver.init host w).2 = heap w ∧
  (∀ self, (AutoSaveObserver.init host w).1 = Returns self →
           AutoSaveObserver.calculator self = host).
Proof.
  pose proof (init_run host w) as Hrun.
  rewrite (emitted_app _ _ _ _ _ Hrun), Hrun. simpl. split.
  - by destruct (bool_decide (is_Some (lookup_attr (heap w) host "config"))).
  - split; [done|]. intros self Hself.
    destruct (_ && _); [|done]. by injection Hself as <-.
Qed.

(** *** Notifications in a row *)

Lemma mapM_cons_run {A B : Type} (f : A → M B) x l w :
  mapM f (x :: l) w =
    match f x w with
    | (Returns y, w1) =>
        match mapM f l w1 with
        | (Returns k, w2) => (Returns (y :: k), w2)
        | (Raises e, w2) => (Raises e, w2)
        end
    | (Raises e, w1) => (Raises e, w1)
    end.
Proof.
  simpl. unfold mbind, M_bind. destruct (f x w) as [[y|e] w1]; [|done].
  by destruct (mapM f l w1) as [[k|e] w2].
Qed.

Lemma logging_mapM_run self h calcs cs :
  Forall2 (λ calc c, as_Calculation h calc = Some c) calcs cs →
  ∀ w, heap w = h →
  ∃ tr,
    mapM (LoggingObserver.update self) calcs w =
      (Returns (replicate (length calcs) ()), {| heap := h; trace := trace w ++ tr |}) ∧
    actions tr = (λ c, ELogInfo (log_line h c)) <$> cs.
Proof.
  induction 1 as [|calc c calcs cs Hc _ IH]; intros w Hw.
  - exists []. rewrite app_nil_r. destruct w as [hw tw]. simpl in Hw. by subst.
  - subst h. rewrite mapM_cons_run, (logging_update_run self calc w c Hc).
    edestruct IH as (tr & -> & Hact); [done|]. simpl.
    eexists. rewrite <- app_assoc. split; [done|].
    simpl. by rewrite Hact.
Qed.

Lemma logging_mapM_stops self h calcs cs rest :
  Forall2 (λ calc c, as_Calculation h calc = Some c) calcs cs →
  ∀ w, heap w = h →
  ∃ tr,
    mapM (LoggingObserver.update self) (calcs ++ VNone :: rest) w =
      (Raises (AttributeError "Calculation cannot be None"),
       {| heap := h; trace := trace w ++ tr |}) ∧
    actions tr = (λ c, ELogInfo (log_line h c)) <$> cs.
Proof.
  induction 1 as [|calc c calcs cs Hc _ IH]; intros w Hw.
  - exists []. rewrite app_nil_r. simpl app. rewrite mapM_cons_run.
    destruct w as [hw tw]. simpl in Hw. by subst.
  - subst h. simpl app. rewrite mapM_cons_run, (logging_update_run self calc w c Hc).
    edestruct IH as (tr & -> & Hact); [done|]. simpl.
    eexists. rewrite <- app_assoc. split; [done|].
    simpl. by rewrite Hact.
Qed.

Lemma actions_log_records (lines : list string) tr :
  actions tr = ELogInfo <$> lines → log_records tr = lines ∧ calls tr = [].
Proof.
  revert lines. induction tr as [|e tr IH]; intros lines Hact.
  - destruct lines; [done|discriminate].
  - destruct e; simpl in *; [by apply IH|destruct lines; discriminate|].
    destruct lines as [|line lines]; [discriminate|].
    injection Hact as -> Hact. destruct (IH _ Hact) as [-> ->]. done.
Qed.

(** X6: a [LoggingObserver] notified of one calculation after the other logs
    one line for each, in the order of the notifications, calls nothing and
    leaves the store as it was. *)
Theorem logging_updates_log_in_order self calcs cs w :
  Forall2 (λ calc c, as_Calculation (heap w) calc = Some c) calcs cs →
  (mapM (LoggingObserver.update self) calcs w).1 = Returns (replicate (length calcs) ()) ∧
  log_records (emitted (mapM (LoggingObserver.update self) calcs) w) =
    log_line (heap w) <$> cs ∧
  calls (emitted (mapM (LoggingObserver.update self) calcs) w) = [] ∧
  heap (mapM (LoggingObserver.update self) calcs w).2 = heap w.
Proof.
  intros Hcs.
  destruct (logging_mapM_run self (heap w) calcs cs Hcs w eq_refl) as (tr & Hrun & Hact).
  rewrite (emitted_app _ _ _ _ _ Hrun), Hrun. simpl.
  change (λ c, ELogInfo (log_line (heap w) c)) with (ELogInfo ∘ log_line (heap w)) in Hact.
  rewrite list_fmap_compose in Hact.
  destruct (actions_log_records _ _ Hact) as [-> ->]. done.
Qed.

(** X7: when a [None] comes up among the notifications of a
    [LoggingObserver], the [AttributeError] ends the sequence there: the
    calculations before it have been logged, in order, and nothing after it
    is. *)
Theorem logging_updates_stop_at_None self calcs cs rest w :
  Forall2 (λ calc c, as_Calculation (heap w) calc = Some c) calcs cs →
  (mapM (LoggingObserver.update self) (calcs ++ VNone :: rest) w).1 =
    Raises (AttributeError "Calculation cannot be None") ∧
  log_records (emitted (mapM (LoggingObserver.update self) (calcs ++ VNone :: rest)) w) =
    log_line (heap w) <$> cs.
Proof.
  intros Hcs.
  destruct (logging_mapM_stops self (heap w) calcs cs rest Hcs w eq_refl)
    as (tr & Hrun & Hact).
  rewrite (emitted_app _ _ _ _ _ Hrun), Hrun. simpl.
  change (λ c, ELogInfo (log_line (heap w) c)) with (ELogInfo ∘ log_line (heap w)) in Hact.
  rewrite list_fmap_compose in Hact.
  destruct (actions_log_records _ _ Hact) as [-> _]. done.
Qed.

Lemma autosave_mapM_run invoke self f calcs :
  (∀ h, ready h (AutoSaveObserver.calculator self) f →
        (invoke f h).2 = None ∧ ready (invoke f h).1 (AutoSaveObserver.calculator self) f) →
  Forall (λ calc, calc ≠ VNone) calcs →
  ∀ w, ready (heap w) (AutoSaveObserver.calculator self) f →
  ∃ tr h',
    mapM (AutoSaveObserver.update invoke self) calcs w =
      (Returns (replicate (length calcs) ()), {| heap := h'; trace := trace w ++ tr |}) ∧
    calls tr = replicate (length calcs) f ∧
    log_records tr = replicate (length calcs) "History auto-saved" ∧
    ready h' (AutoSaveObserver.calculator self) f.
Proof.
  intros Hinv. induction 1 as [|calc calcs Hnone _ IH]; intros w Hready.
  - exists [], (heap w). rewrite app_nil_r. by destruct w.
  - destruct (Hinv _ Hready) as [Hret Hready'].
    destruct Hready as (flag & (config & Hc & Hf)%auto_save_of_Some & Ht &
                        (save_history & Hs & Hcall)%save_history_of_Some).
    rewrite mapM_cons_run,
      (update_enabled_run invoke self calc w _ _ _ _ Hnone Hc Hf Ht Hs Hcall), Hret.
    edestruct IH as (tr & h' & -> & Hcalls & Hlogs & Hready''); [exact Hready'|].
    simpl. eexists _, h'. rewrite <- app_assoc. split; [done|].
    unfold calls, log_records in *. rewrite !omap_app. simpl.
    by rewrite Hcalls, Hlogs.
Qed.

(** X8: over a host that is ready to save, and whose [save_history] returns
    and leaves it ready, an [AutoSaveObserver] notified of [n] calculations
    that are not [None] calls [save_history] [n] times and logs
    "History auto-saved" [n] times. *)
Theorem autosave_updates_save_each_time invoke self f calcs w :
  (∀ h, ready h (AutoSaveObserver.calculator self) f →
        (invoke f h).2 = None ∧ ready (invoke f h).1 (AutoSaveObserver.calculator self) f) →
  Forall (λ calc, calc ≠ VNone) calcs →
  ready (heap w) (AutoSaveObserver.calculator self) f →
  (mapM (AutoSaveObserver.update invoke self) calcs w).1 =
    Returns (replicate (length calcs) ()) ∧
  calls (emitted (mapM (AutoSaveObserver.update invoke self) calcs) w) =
    replicate (length calcs) f ∧
  log_records (emitted (mapM (AutoSaveObserver.update invoke self) calcs) w) =
    replicate (length calcs) "History auto-saved".
Proof.
  intros Hinv Hcalcs Hready.
  destruct (autosave_mapM_run invoke self f calcs Hinv Hcalcs w Hready)
    as (tr & h' & Hrun & Hcalls & Hlogs & _).
  by rewrite (emitted_app _ _ _ _ _ Hrun), Hrun.
Qed.

(** X9: when the [LoggingObserver] and then the [AutoSaveObserver] are
    notified of the same calculation, over a host with [auto_save] true, the
    line of the calculation is logged first, [save_history] is called next,
    and "History auto-saved" is logged last, if [save_history] returned; if
    it raised, the line of the calculation stays logged. *)
Theorem observers_in_turn invoke logger saver calc c w flag f :
  as_Calculation (heap w) calc = Some c →
  auto_save_of (heap w) (AutoSaveObserver.calculator saver) = Some flag →
  truthy (heap w) flag = true →
  save_history_of (heap w) (AutoSaveObserver.calculator saver) = Some f →
  ((LoggingObserver.update logger calc;; AutoSaveObserver.update invoke saver calc) w).1 =
    match (invoke f (heap w)).2 with
    | None => Returns ()
    | Some e => Raises e
    end ∧
  actions (emitted (LoggingObserver.update logger calc;;
                    AutoSaveObserver.update invoke saver calc) w) =
    ELogInfo (log_line (heap w) c) :: ECall f ::
    match (invoke f (heap w)).2 with
    | None => [ELogInfo "History auto-saved"]
    | Some _ => []
    end.
Proof.
  intros Hcalc (config & Hc & Hf)%auto_save_of_Some Ht
    (save_history & Hs & Hcall)%save_history_of_Some.
  pose proof (proj2 (proj2 (proj2 (proj2 (as_Calculation_Some _ _ _ Hcalc))))) as Hnone.
  pose proof (logging_update_run logger calc w c Hcalc) as Hlog.
  match type of Hlog with _ = (_, ?w') => set (w1 := w') in Hlog end.
  pose proof (update_enabled_run invoke saver calc w1 _ _ _ _ Hnone Hc Hf Ht Hs Hcall)
    as Hsave.
  pose proof (bind_returns _ (λ _, AutoSaveObserver.update invoke saver calc) _ _ _ Hlog)
    as Hrun.
  cbv beta in Hrun. rewrite Hsave in Hrun. simpl in Hrun. rewrite <- app_assoc in Hrun.
  rewrite (emitted_app _ _ _ _ _ Hrun), Hrun. simpl.
  by destruct ((invoke f (heap w)).2).
Qed.

(** *** The further properties at work on the example stores *)

(** The configuration 2 is no calculation: it has no [operation]. *)
Lemma logging_update_incomplete_calculation_witness :
  VRef 2%positive ≠ VNone ∧
  as_Calculation (heap (start true)) (VRef 2%positive) = None ∧
  log_records (emitted (LoggingObserver.update LoggingObserver.new (VRef 2%positive))
                 (start true)) = [].
Proof.
  assert (VRef 2%positive ≠ VNone) as Hnone by discriminate.
  assert (as_Calculation (heap (start true)) (VRef 2%positive) = None) as Hc
    by (vm_compute; reflexivity).
  split; [exact Hnone|]. split; [exact Hc|].
  exact (proj1 (proj2 (logging_update_incomplete_calculation LoggingObserver.new
                         (VRef 2%positive) (start true) Hnone Hc))).
Defined.

(** The calculator 6, whose [config] has no [auto_save], is accepted by the
    constructor and fails when it is notified. *)
Lemma update_unreadable_flag_witness :
  (AutoSaveObserver.init (VRef 6%positive) (start true)).1 =
    Returns {| AutoSaveObserver.calculator := VRef 6%positive |} ∧
  auto_save_of (heap (start true)) (VRef 6%positive) = None ∧
  actions (emitted (AutoSaveObserver.update saves
                      {| AutoSaveObserver.calculator := VRef 6%positive |}
                      (VRef 1%positive)) (start true)) = [].
Proof.
  assert (VRef 1%positive ≠ VNone) as Hnone by discriminate.
  assert (auto_save_of (heap (start true)) (VRef 6%positive) = None) as Hf
    by (vm_compute; reflexivity).
  split; [vm_compute; reflexivity|]. split; [exact Hf|].
  exact (proj1 (proj2 (update_unreadable_flag saves
                         {| AutoSaveObserver.calculator := VRef 6%positive |}
                         (VRef 1%positive) (start true) Hnone Hf))).
Defined.

(** The calculator 8, whose [save_history] is a string, is accepted by the
    constructor and fails when it is notified. *)
Lemma update_enabled_without_callable_witness :
  (AutoSaveObserver.init (VRef 8%positive) unsavable_start).1 =
    Returns {| AutoSaveObserver.calculator := VRef 8%positive |} ∧
  auto_save_of (heap unsavable_start) (VRef 8%positive) = Some (VBool true) ∧
  save_history_of (heap unsavable_start) (VRef 8%positive) = None ∧
  (AutoSaveObserver.update saves {| AutoSaveObserver.calculator := VRef 8%positive |}
     (VRef 1%positive) unsavable_start).1 =
    Raises (TypeError "'str' object is not callable") ∧
  actions (emitted (AutoSaveObserver.update saves
                      {| AutoSaveObserver.calculator := VRef 8%positive |}
                      (VRef 1%positive)) unsavable_start) = [].
Proof.
  assert (VRef 1%positive ≠ VNone) as Hnone by discriminate.
  assert (auto_save_of (heap unsavable_start) (VRef 8%positive) = Some (VBool true)) as Hf
    by (vm_compute; reflexivity).
  assert (save_history_of (heap unsavable_start) (VRef 8%positive) = None) as Hs
    by (vm_compute; reflexivity).
  pose proof (update_enabled_without_callable saves
                {| AutoSaveObserver.calculator := VRef 8%positive |}
                (VRef 1%positive) unsavable_start (VBool true) Hnone Hf eq_refl Hs)
    as (Hout & Hact & _).
  split; [vm_compute; reflexivity|]. split; [exact Hf|]. split; [exact Hs|].
  split; [exact Hout|exact Hact].
Defined.

(** A calculation and the number 7 are the same to the auto-save observer. *)
Lemma update_ignores_calculation_witness :
  VRef 1%positive ≠ VNone ∧ VInt 7 ≠ VNone ∧
  AutoSaveObserver.update saves {| AutoSaveObserver.calculator := VRef 4%positive |}
    (VRef 1%positive) (start true) =
  AutoSaveObserver.update saves {| AutoSaveObserver.calculator := VRef 4%positive |}
    (VInt 7) (start true).
Proof.
  assert (VRef 1%positive ≠ VNone) as H1 by discriminate.
  assert (VInt 7 ≠ VNone) as H2 by discriminate.
  split; [exact H1|]. split; [exact H2|].
  exact (update_ignores_calculation saves
           {| AutoSaveObserver.calculator := VRef 4%positive |}
           (VRef 1%positive) (VInt 7) (start true) H1 H2).
Defined.

Lemma init_is_silent_witness :
  (AutoSaveObserver.init (VRef 4%positive) (start true)).1 =
    Returns {| AutoSaveObserver.calculator := VRef 4%positive |} ∧
  actions (emitted (AutoSaveObserver.init (VRef 4%positive)) (start true)) = [] ∧
  AutoSaveObserver.calculator {| AutoSaveObserver.calculator := VRef 4%positive |} =
    VRef 4%positive.
Proof.
  assert ((AutoSaveObserver.init (VRef 4%positive) (start true)).1 =
            Returns {| AutoSaveObserver.calculator := VRef 4%positive |}) as Hinit
    by (vm_compute; reflexivity).
  pose proof (init_is_silent (VRef 4%positive) (start true)) as (Hact & _ & Hself).
  split; [exact Hinit|]. split; [exact Hact|]. exact (Hself _ Hinit).
Defined.

Lemma logging_updates_log_in_order_witness :
  Forall2 (λ calc c, as_Calculation (heap (start true)) calc = Some c)
    [VRef 1%positive; VRef 1%positive] [add_2_3; add_2_3] ∧
  log_records (emitted (mapM (LoggingObserver.update LoggingObserver.new)
                          [VRef 1%positive; VRef 1%positive]) (start true)) =
    log_line (heap (start true)) <$> [add_2_3; add_2_3].
Proof.
  assert (Forall2 (λ calc c, as_Calculation (heap (start true)) calc = Some c)
            [VRef 1%positive; VRef 1%positive] [add_2_3; add_2_3]) as Hcs
    by (repeat constructor; vm_compute; reflexivity).
  split; [exact Hcs|].
  exact (proj1 (proj2 (logging_updates_log_in_order LoggingObserver.new _ _
                         (start true) Hcs))).
Defined.

Lemma logging_updates_stop_at_None_witness :
  Forall2 (λ calc c, as_Calculation (heap (start true)) calc = Some c)
    [VRef 1%positive] [add_2_3] ∧
  (mapM (LoggingObserver.update LoggingObserver.new)
     ([VRef 1%positive] ++ VNone :: [VRef 1%positive]) (start true)).1 =
    Raises (AttributeError "Calculation cannot be None") ∧
  log_records (emitted (mapM (LoggingObserver.update LoggingObserver.new)
                          ([VRef 1%positive] ++ VNone :: [VRef 1%positive]))
                 (start true)) =
    log_line (heap (start true)) <$> [add_2_3].
Proof.
  assert (Forall2 (λ calc c, as_Calculation (heap (start true)) calc = Some c)
            [VRef 1%positive] [add_2_3]) as Hcs
    by (repeat constructor; vm_compute; reflexivity).
  split; [exact Hcs|].
  exact (logging_updates_stop_at_None LoggingObserver.new _ _ [VRef 1%positive]
           (start true) Hcs).
Defined.

Lemma autosave_updates_save_each_time_witness :
  (∀ h, ready h (VRef 4%positive) 0%nat →
        (saves 0%nat h).2 = None ∧ ready (saves 0%nat h).1 (VRef 4%positive) 0%nat) ∧
  Forall (λ calc, calc ≠ VNone) [VRef 1%positive; VInt 7] ∧
  ready (heap (start true)) (VRef 4%positive) 0%nat ∧
  calls (emitted (mapM (AutoSaveObserver.update saves
                          {| AutoSaveObserver.calculator := VRef 4%positive |})
                    [VRef 1%positive; VInt 7]) (start true)) = [0%nat; 0%nat] ∧
  log_records (emitted (mapM (AutoSaveObserver.update saves
                                {| AutoSaveObserver.calculator := VRef 4%positive |})
                          [VRef 1%positive; VInt 7]) (start true)) =
    ["History auto-saved"; "History auto-saved"].
Proof.
  assert (∀ h, ready h (VRef 4%positive) 0%nat →
               (saves 0%nat h).2 = None ∧ ready (saves 0%nat h).1 (VRef 4%positive) 0%nat)
    as Hinv by (intros h Hh; split; [reflexivity|exact Hh]).
  assert (Forall (λ calc, calc ≠ VNone) [VRef 1%positive; VInt 7]) as Hcalcs
    by (repeat constructor; discriminate).
  assert (ready (heap (start true)) (VRef 4%positive) 0%nat) as Hready
    by (exists (VBool true); repeat split; vm_compute; reflexivity).
  split; [exact Hinv|]. split; [exact Hcalcs|]. split; [exact Hready|].
  exact (proj2 (autosave_updates_save_each_time saves
                  {| AutoSaveObserver.calculator := VRef 4%positive |} 0%nat
                  [VRef 1%positive; VInt 7] (start true) Hinv Hcalcs Hready)).
Defined.

Lemma observers_in_turn_witness :
  as_Calculation (heap (start true)) (VRef 1%positive) = Some add_2_3 ∧
  auto_save_of (heap (start true)) (VRef 4%positive) = Some (VBool true) ∧
  save_history_of (heap (start true)) (VRef 4%positive) = Some 0%nat ∧
  actions (emitted (LoggingObserver.update LoggingObserver.new (VRef 1%positive);;
                    AutoSaveObserver.update saves
                      {| AutoSaveObserver.calculator := VRef 4%positive |}
                      (VRef 1%positive)) (start true)) =
    [ELogInfo "Calculation performed: add (2, 3) = 5"; ECall 0%nat;
     ELogInfo "History auto-saved"].
Proof.
  assert (as_Calculation (heap (start true)) (VRef 1%positive) = Some add_2_3) as Hc
    by (vm_compute; reflexivity).
  assert (auto_save_of (heap (start true)) (VRef 4%positive) = Some (VBool true)) as Hf
    by (vm_compute; reflexivity).
  assert (save_history_of (heap (start true)) (VRef 4%positive) = Some 0%nat) as Hs
    by (vm_compute; reflexivity).
  split; [exact Hc|]. split; [exact Hf|]. split; [exact Hs|].
  exact (proj2 (observers_in_turn saves LoggingObserver.new
                  {| AutoSaveObserver.calculator := VRef 4%positive |}
                  (VRef 1%positive) add_2_3 (start true) (VBool true) 0%nat
                  Hc Hf eq_refl Hs)).
Defined.
